(** * quick_setup.py: the Django quick-setup script, embedded and verified

    The script is a straight-line orchestration of external commands and
    yes/no prompts.  Everything it does is an effect, so the embedding is a
    small exception-and-trace monad: a computation is run against a [world]
    (the answers of the file system, the terminal, the shell and the
    network) and yields a Python-style result (a value or a raised
    exception) together with the events it emitted, in order. *)

From Stdlib Require Import String Ascii ZArith List Bool Lia.
Import ListNotations.
Open Scope string_scope.
Open Scope list_scope.
Open Scope Z_scope.

(** ** Strings *)

(** An f-string is the concatenation of its literal and interpolated parts. *)
Definition fstring (parts : list string) : string := String.concat "" parts.

Definition esc : string := String "027" EmptyString.   (* "\033" *)
Definition nl : string := String "010" EmptyString.    (* "\n" *)
(** The check mark U+2713, as its UTF-8 bytes. *)
Definition check_mark : string :=
  String "226" (String "156" (String "147" EmptyString)).

(** [str.lower()] on the ASCII range: A..Z go to a..z, other bytes stay. *)
Definition lower_ascii (ch : ascii) : ascii :=
  let n := nat_of_ascii ch in
  if andb (Nat.leb 65 n) (Nat.leb n 90) then ascii_of_nat (n + 32)%nat else ch.

Fixpoint lower (s : string) : string :=
  match s with
  | EmptyString => EmptyString
  | String ch rest => String (lower_ascii ch) (lower rest)
  end.

(** Python truthiness of a string and of an optional string
    ([if section_name:], [if local_ip:]): [None] and [""] are false. *)
Definition truthy (o : option string) : bool :=
  match o with
  | Some s => negb (String.eqb s "")
  | None => false
  end.

(** ** Exceptions, answers of the outside world, events *)

(** The exception classes the script distinguishes.  [Error] stands for any
    other instance of [Exception] (OSError, EOFError, ...);
    [KeyboardInterrupt] and [SystemExit] derive from [BaseException] only. *)
Inductive exn : Type :=
| CalledProcessError (returncode : Z) (cmd : string)
| Error (msg : string)
| KeyboardInterrupt
| SystemExit (code : Z).

(** [except Exception] *)
Definition is_Exception (e : exn) : bool :=
  match e with
  | CalledProcessError _ _ | Error _ => true
  | KeyboardInterrupt | SystemExit _ => false
  end.

(** What can go wrong inside a library call: an error raised by the
    library, or Ctrl-C delivered while the call is in progress. *)
Inductive fault : Type :=
| Err (msg : string)
| Interrupt.

Definition exn_of_fault (f : fault) : exn :=
  match f with
  | Err msg => Error msg
  | Interrupt => KeyboardInterrupt
  end.

Inductive answer (A : Type) : Type :=
| Ok (a : A)
| Fault (f : fault).
Arguments Ok {A} a.
Arguments Fault {A} f.

(** How [subprocess.run(command, shell=True, check=True)] ends.  The
    command line is handed to the host shell, which reports a command it
    cannot find or execute through its own exit status; the call ends with
    that status, or with Ctrl-C, or, when the shell itself cannot be
    started (or the command line cannot be passed to it), with the
    [OSError] or [ValueError] that [subprocess.run] raises before any
    child has run. *)
Inductive proc : Type :=
| Exited (returncode : Z)
| Interrupted
| NotStarted (msg : string).

(** The calls made on the diagnostic socket of [get_local_ip]. *)
Inductive sock_op : Type :=
| SockCreate                                (* socket.socket(AF_INET, SOCK_DGRAM) *)
| SockSetTimeout                            (* s.settimeout(0.1) *)
| SockConnect (host : string) (port : Z)    (* s.connect((host, port)) *)
| SockGetName                               (* s.getsockname() *)
| SockClose.                                (* s.close() *)

Inductive event : Type :=
| Printed (text : string)                      (* print(text) *)
| Asked (prompt : string) (a : answer string)  (* input(prompt) *)
| Ran (command : string) (p : proc)            (* the call subprocess.run(command, shell=True, check=True) *)
| SockCall (op : sock_op) (f : option fault).  (* a socket call, and whether it raised *)

(** The outside world of one run.  The n-th [input()] and the n-th
    [subprocess.run] are answered by position, so that the same command may
    be answered differently when it is issued again. *)
Record world : Type := {
  path_exists : string -> bool;          (* os.path.exists *)
  stdin : nat -> answer string;          (* n-th call of input() *)
  shell : nat -> string -> proc;         (* how the n-th command ends *)
  sock : sock_op -> option fault;        (* None: the call succeeds *)
  local_addr : string                    (* s.getsockname()[0] *)
}.

Record counters : Type := { asked : nat; ran : nat }.

Definition start : counters := {| asked := 0%nat; ran := 0%nat |}.

(** ** The monad *)

Inductive result (A : Type) : Type :=
| Ret (a : A)
| Raise (e : exn).
Arguments Ret {A} a.
Arguments Raise {A} e.

Record outcome (A : Type) : Type := Outcome {
  res : result A;
  emitted : list event;
  after : counters
}.
Arguments Outcome {A} res emitted after.
Arguments res {A} o.
Arguments emitted {A} o.
Arguments after {A} o.

Definition M (A : Type) : Type := world -> counters -> outcome A.

Definition ret {A} (a : A) : M A := fun _ c => Outcome (Ret a) [] c.

Definition raise {A} (e : exn) : M A := fun _ c => Outcome (Raise e) [] c.

(** [prepend t o]: the events [t] happened before the run that gave [o]. *)
Definition prepend {A} (t : list event) (o : outcome A) : outcome A :=
  match o with
  | Outcome r t' c => Outcome r (t ++ t') c
  end.

Definition bind {A B} (m : M A) (k : A -> M B) : M B :=
  fun w c =>
    match m w c with
    | Outcome (Ret a) t c' => prepend t (k a w c')
    | Outcome (Raise e) t c' => Outcome (Raise e) t c'
    end.

(** [try: m  except <the classes on which h answers Some> as e: h e] *)
Definition try_except {A} (m : M A) (h : exn -> option (M A)) : M A :=
  fun w c =>
    match m w c with
    | Outcome (Ret a) t c' => Outcome (Ret a) t c'
    | Outcome (Raise e) t c' =>
        match h e with
        | Some k => prepend t (k w c')
        | None => Outcome (Raise e) t c'
        end
    end.

Declare Scope py_scope.
Delimit Scope py_scope with py.
Notation "x <- m ;; k" := (bind m (fun x => k))
  (at level 61, m at next level, right associativity) : py_scope.
Notation "m ;; k" := (bind m (fun _ => k))
  (at level 61, right associativity) : py_scope.
Open Scope py_scope.

(** ** Primitives *)

Definition print (text : string) : M unit :=
  fun _ c => Outcome (Ret tt) [Printed text] c.

Definition input (prompt : string) : M string :=
  fun w c =>
    let a := stdin w (asked c) in
    Outcome (match a with
             | Ok s => Ret s
             | Fault f => Raise (exn_of_fault f)
             end)
            [Asked prompt a]
            {| asked := S (asked c); ran := ran c |}.

(** [subprocess.run(command, shell=True, check=True)]: returns when the
    shell exits with status zero, raises [CalledProcessError] when it exits
    with another status, and raises the error of the library when the
    shell could not be started. *)
Definition subprocess_run (command : string) : M unit :=
  fun w c =>
    let p := shell w (ran c) command in
    Outcome (match p with
             | Exited rc => if rc =? 0 then Ret tt else Raise (CalledProcessError rc command)
             | Interrupted => Raise KeyboardInterrupt
             | NotStarted msg => Raise (Error msg)
             end)
            [Ran command p]
            {| asked := asked c; ran := S (ran c) |}.

Definition os_path_exists (path : string) : M bool :=
  fun w c => Outcome (Ret (path_exists w path)) [] c.

Definition sys_exit {A} (code : Z) : M A := raise (SystemExit code).

Definition sock_call (op : sock_op) : M unit :=
  fun w c =>
    Outcome (match sock w op with
             | None => Ret tt
             | Some f => Raise (exn_of_fault f)
             end)
            [SockCall op (sock w op)]
            c.

Definition sock_getsockname : M string :=
  fun w c =>
    Outcome (match sock w SockGetName with
             | None => Ret (local_addr w)
             | Some f => Raise (exn_of_fault f)
             end)
            [SockCall SockGetName (sock w SockGetName)]
            c.

(** What the interpreter does with the result of [main()]: a normal return
    is status 0, [sys.exit(n)] is status n, an exception that reaches the
    top is reported with a traceback and status 1, and an interrupt that
    reaches the top ends the process as killed by SIGINT (130 for the
    shell that started it). *)
Definition exit_status (r : result unit) : Z :=
  match r with
  | Ret _ => 0
  | Raise (SystemExit code) => code
  | Raise KeyboardInterrupt => 130
  | Raise _ => 1
  end.

(** ** Reading traces *)

(** The commands of a trace, in the order they were handed to
    [subprocess.run]. *)
Fixpoint commands (t : list event) : list string :=
  match t with
  | [] => []
  | Ran command _ :: t' => command :: commands t'
  | _ :: t' => commands t'
  end.

(** The prompts shown, in order. *)
Fixpoint prompts (t : list event) : list string :=
  match t with
  | [] => []
  | Asked p _ :: t' => p :: prompts t'
  | _ :: t' => prompts t'
  end.

(** The socket calls made, in order. *)
Fixpoint sock_ops (t : list event) : list sock_op :=
  match t with
  | [] => []
  | SockCall op _ :: t' => op :: sock_ops t'
  | _ :: t' => sock_ops t'
  end.

(** The arguments after [parser.parse_args()]. *)
Record arguments : Type := {
  requirements : string;
  project_dir : string
}.

(** ** The script *)

Section Script.

(** What the script takes from its platform: the directory of the script
    file ([os.path.dirname(os.path.abspath(__file__))]), [os.path.join] on
    two components (a call with three components joins from the left),
    and [str(e)] on an exception object. *)
Variable script_dir : string.
Variable os_path_join : string -> string -> string.
Variable str : exn -> string.

Definition running_line (section_name : string) : string :=
  fstring [esc; "[94mRunning "; section_name; "..."; esc; "[0m"].

Definition done_line : string :=
  fstring [nl; esc; "[92m"; check_mark; "  Done!"; esc; "[0m"; nl].

Definition error_line (e : exn) : string :=
  fstring [esc; "[91mError: "; str e; esc; "[0m"].

(** [run_command(command, **kwargs)]; [section_name] is
    [kwargs.get("section_name")]. *)
Definition run_command (command : string) (section_name : option string) : M unit :=
  (if truthy section_name
   then print (running_line (match section_name with Some n => n | None => "None" end))
   else ret tt) ;;
  try_except
    (subprocess_run command ;;
     print done_line)
    (fun e =>
       match e with
       | CalledProcessError _ _ => Some (print (error_line e) ;; sys_exit 1)
       | _ => None
       end).

Definition get_local_ip : M (option string) :=
  try_except
    (sock_call SockCreate ;;
     sock_call SockSetTimeout ;;
     sock_call (SockConnect "8.8.8.8" 80) ;;
     local_ip <- sock_getsockname ;;
     sock_call SockClose ;;
     ret (Some local_ip))
    (fun e =>
       if is_Exception e
       then Some (print (error_line e) ;; ret None)
       else None).

Definition creating_line : string :=
  fstring [esc; "[97mCreating a virtual environment..."; esc; "[0m"].

Definition venv_command (venv_path : string) : string :=
  fstring ["python -m venv "; venv_path].

Definition create_virtual_environment (venv_path : string) : M unit :=
  print creating_line ;;
  run_command (venv_command venv_path) None.

Definition activate_script (venv_path : string) : string :=
  os_path_join (os_path_join venv_path "Scripts") "activate".

Definition activate_virtual_environment (venv_path : string) : M unit :=
  run_command (activate_script venv_path) None.

Definition installing_line : string :=
  fstring [esc; "[97mInstalling project dependencies..."; esc; "[0m"; nl].

Definition pip_command (venv_path requirements_path : string) : string :=
  fstring [venv_path; "\Scripts\pip install -r "; requirements_path].

Definition install_dependencies (venv_path requirements_path : string) : M unit :=
  print installing_line ;;
  run_command (pip_command venv_path requirements_path) None.

(** [f"{venv_path}\\Scripts\\python {os.path.join(project_dir, 'manage.py')} <sub>"] *)
Definition manage_command (venv_path project_dir sub : string) : string :=
  fstring [venv_path; "\Scripts\python "; os_path_join project_dir "manage.py"; " "; sub].

Definition management_line : string :=
  fstring [esc; "[97mRunning initial management commands..."; esc; "[0m"; nl].

Definition run_initial_management_commands (venv_path project_dir : string) : M unit :=
  print management_line ;;
  run_command (manage_command venv_path project_dir "makemigrations") (Some "makemigrations") ;;
  run_command (manage_command venv_path project_dir "migrate") (Some "migrate") ;;
  run_command (manage_command venv_path project_dir "collectstatic --noinput") (Some "collectstatic").

Definition start_prompt : string :=
  fstring [nl; esc; "[94mStart the Django development server? (y/n): "; esc; "[0m"].

Definition expose_prompt : string :=
  fstring [nl; esc; "[93mExpose the server to the network? (y/n): "; esc; "[0m"].

Definition warning_line : string :=
  fstring [nl; esc; "[91mWARNING: Exposing the server to the network may pose security risks."].

Definition measures_line : string :=
  "Please ensure proper security measures are in place.".

Definition access_line (local_ip : string) : string :=
  fstring [nl; esc;
           "[92mYou can access the server from other devices on the network using this IP: ";
           local_ip; ":8000"; esc; "[0m"].

Definition unable_line : string :=
  fstring [nl; esc;
           "[91mUnable to determine the local IP address. You can manually find it and use it to access the server.";
           esc; "[0m"].

Definition start_django_server (venv_path project_dir : string) : M unit :=
  start_server <- input start_prompt ;;
  if String.eqb (lower start_server) "y" then
    expose_to_network <- input expose_prompt ;;
    if String.eqb (lower expose_to_network) "y" then
      print warning_line ;;
      print measures_line ;;
      local_ip <- get_local_ip ;;
      (if truthy local_ip
       then print (access_line (match local_ip with Some ip => ip | None => "None" end))
       else print unable_line) ;;
      run_command (manage_command venv_path project_dir "runserver 0.0.0.0:80")
                  (Some "Django server")
    else
      run_command (manage_command venv_path project_dir "runserver")
                  (Some "Django server")
  else ret tt.

Definition reinstall_prompt : string :=
  fstring [esc; "[93mA virtual environment already exists. Reinstall the project? (y/n): ";
           esc; "[0m"].

Definition anyway_prompt : string :=
  fstring [esc; "[93mRun the management commands anyway? (y/n): "; esc; "[0m"].

Definition skipped_line : string :=
  fstring [esc; "[92mSetup completed without reinstalling the project."; esc; "[0m"].

Definition success_line : string :=
  fstring [nl; esc; "[92mSetup and server run completed successfully!"; esc; "[0m"].

Definition interrupt_line : string :=
  fstring [nl; esc; "[91mKeyboardInterrupt. Exiting..."; esc; "[0m"].

Definition venv_path : string := os_path_join script_dir "venv".

(** The body of the [try] of [main], after the arguments are parsed. *)
Definition main_body (args : arguments) : M unit :=
  venv_exists <- os_path_exists venv_path ;;
  (if venv_exists then
     reinstall_project <- input reinstall_prompt ;;
     if String.eqb (lower reinstall_project) "n" then
       run_management_commands <- input anyway_prompt ;;
       (if String.eqb (lower run_management_commands) "y" then
          run_initial_management_commands venv_path (project_dir args) ;;
          start_django_server venv_path (project_dir args)
        else ret tt) ;;
       print skipped_line ;;
       sys_exit 0
     else ret tt
   else ret tt) ;;
  create_virtual_environment venv_path ;;
  activate_virtual_environment venv_path ;;
  install_dependencies venv_path (requirements args) ;;
  run_initial_management_commands venv_path (project_dir args) ;;
  start_django_server venv_path (project_dir args) ;;
  print success_line.

(** [except KeyboardInterrupt:] at the outermost scope. *)
Definition on_interrupt (e : exn) : option (M unit) :=
  match e with
  | KeyboardInterrupt => Some (print interrupt_line ;; sys_exit 1)
  | _ => None
  end.

Definition main (args : arguments) : M unit :=
  try_except (main_body args) on_interrupt.

(** One run of the script as a process: its trace and its exit status. *)
Definition script (args : arguments) (w : world) : outcome unit := main args w start.

Definition status (args : arguments) (w : world) : Z := exit_status (res (script args w)).

(** How [parser.parse_args()] ends on the command line of the process.
    The parser has the two positionals [requirements] and [project_dir]
    and the implicit [-h]: it returns the two arguments, or prints its
    help text and calls [sys.exit(0)], or prints its usage message and
    calls [sys.exit(2)].  The texts are written by argparse itself and are
    not events of the trace. *)
Inductive parse : Type :=
| Parsed (args : arguments)
| HelpRequested
| UsageError.

Definition parse_args (p : parse) : M arguments :=
  match p with
  | Parsed args => ret args
  | HelpRequested => sys_exit 0
  | UsageError => sys_exit 2
  end.

(** [main()] from its first statement: the parsing is inside the [try]. *)
Definition main_cli (p : parse) : M unit :=
  try_except
    (args <- parse_args p ;;
     main_body args)
    on_interrupt.

Definition status_cli (p : parse) (w : world) : Z :=
  exit_status (res (main_cli p w start)).

(** The commands of the script, as the functions above build them. *)
Definition bootstrap_commands (venv_path project_dir : string) : list string :=
  [ manage_command venv_path project_dir "makemigrations";
    manage_command venv_path project_dir "migrate";
    manage_command venv_path project_dir "collectstatic --noinput" ].

Definition provision_commands (args : arguments) : list string :=
  [ venv_command venv_path;
    activate_script venv_path;
    pip_command venv_path (requirements args) ].

Definition runserver_local (args : arguments) : string :=
  manage_command venv_path (project_dir args) "runserver".

Definition runserver_all (args : arguments) : string :=
  manage_command venv_path (project_dir args) "runserver 0.0.0.0:80".

(** The three ways the Server Launcher can end a run that completes. *)
Definition launch_choices (args : arguments) : list (list string) :=
  [ []; [runserver_local args]; [runserver_all args] ].

(** The commands of a run that starts without an environment, up to the
    end of the bootstrap. *)
Definition fresh_sequence (args : arguments) : list string :=
  provision_commands args ++ bootstrap_commands venv_path (project_dir args).

(** The same sequence in the words of the specification: create the
    environment, install, makemigrations, migrate, collectstatic. *)
Definition spec_sequence (args : arguments) : list string :=
  venv_command venv_path
  :: pip_command venv_path (requirements args)
  :: bootstrap_commands venv_path (project_dir args).

(** The socket calls of [get_local_ip], in program order. *)
Definition discovery_ops : list sock_op :=
  [SockCreate; SockSetTimeout; SockConnect "8.8.8.8" 80; SockGetName; SockClose].

(** Ctrl-C arrived during this event. *)
Definition interrupted (ev : event) : bool :=
  match ev with
  | Asked _ (Fault Interrupt) => true
  | Ran _ Interrupted => true
  | SockCall _ (Some Interrupt) => true
  | _ => false
  end.

(** Every command of the world exits with status zero. *)
Definition cooperative (w : world) : Prop :=
  forall n command, shell w n command = Exited 0.

(** No socket call of the world is interrupted. *)
Definition uninterrupted_network (w : world) : Prop :=
  forall op, sock w op <> Some Interrupt.

(** ** Sample platform and worlds *)

Definition sample_dir : string := "C:\tools".

Definition sample_join (a b : string) : string := fstring [a; "\"; b].

Definition sample_str (e : exn) : string :=
  match e with
  | CalledProcessError _ cmd => fstring ["Command '"; cmd; "' failed."]
  | Error msg => msg
  | KeyboardInterrupt => ""
  | SystemExit _ => "exit"
  end.

Definition sample_args : arguments :=
  {| requirements := "requirements.txt"; project_dir := "shop" |}.

(** Lines typed at the terminal; the terminal is at end of file after them. *)
Definition typed (lines : list string) : nat -> answer string :=
  fun n =>
    match nth_error lines n with
    | Some line => Ok line
    | None => Fault (Err "EOF when reading a line")
    end.

Definition all_succeed : nat -> string -> proc := fun _ _ => Exited 0.

(** The n-th command exits with status [rc], the others with zero. *)
Definition failing_at (k : nat) (rc : Z) : nat -> string -> proc :=
  fun n _ => if Nat.eqb n k then Exited rc else Exited 0.

Definition network_up : sock_op -> option fault := fun _ => None.

Definition network_down : sock_op -> option fault :=
  fun op =>
    match op with
    | SockConnect _ _ => Some (Err "[Errno 101] Network is unreachable")
    | _ => None
    end.

Definition sample_world (venv_exists : bool) (lines : list string)
    (sh : nat -> string -> proc) (net : sock_op -> option fault) : world :=
  {| path_exists := fun _ => venv_exists;
     stdin := typed lines;
     shell := sh;
     sock := net;
     local_addr := "192.168.1.20" |}.

(** No environment yet, everything succeeds, the server is started on the
    loopback interface. *)
Definition fresh_world : world :=
  sample_world false ["y"; "n"] all_succeed network_up.

(** The environment exists and the user declines both prompts. *)
Definition declining_world : world :=
  sample_world true ["N"; "later"] all_succeed network_up.

(** The environment exists and the user just presses Enter. *)
Definition enter_world : world :=
  sample_world true [""; "n"] all_succeed network_up.

(** The environment exists; bootstrap only, then no server. *)
Definition bootstrap_only_world : world :=
  sample_world true ["n"; "Y"; "no"] all_succeed network_up.

(** No environment yet; the server is exposed while the network is down. *)
Definition offline_world : world :=
  sample_world false ["Y"; "y"] all_succeed network_down.

(** No environment yet; migrate, the fifth command, exits with status 1. *)
Definition broken_migration_world : world :=
  sample_world false ["n"] (failing_at 4 1) network_up.

(** The shell cannot be started. *)
Definition unspawnable_world : world :=
  sample_world false []
    (fun _ _ => NotStarted "[Errno 2] No such file or directory: '/bin/sh'")
    network_up.


(** Ctrl-C while the second command is running. *)
Definition interrupted_world : world :=
  {| path_exists := fun _ => false;
     stdin := typed [];
     shell := fun n _ => if Nat.eqb n 1 then Interrupted else Exited 0;
     sock := network_up;
     local_addr := "192.168.1.20" |}.

(** No environment yet, everything succeeds, nobody at the terminal. *)
Definition unattended_world : world :=
  sample_world false [] all_succeed network_up.

(** No environment yet; the activate script is not found (status 127). *)
Definition no_activate_world : world :=
  sample_world false ["n"] (failing_at 1 127) network_up.

(** No environment yet; the server is exposed and the network is up. *)
Definition exposed_world : world :=
  sample_world false ["y"; "Y"] all_succeed network_up.

(** ** Equations of the monad *)

Lemma prepend_nil {A} (o : outcome A) : prepend [] o = o.
Proof. destruct o; reflexivity. Qed.

Lemma bind_ret {A B} (a : A) (k : A -> M B) w c : bind (ret a) k w c = k a w c.
Proof. unfold bind, ret. apply prepend_nil. Qed.

Lemma bind_assoc {A B C} (m : M A) (k : A -> M B) (k' : B -> M C) w c :
  bind (bind m k) k' w c = bind m (fun a => bind (k a) k') w c.
Proof.
  unfold bind.
  destruct (m w c) as [[a | e] t c1]; [ | reflexivity ].
  destruct (k a w c1) as [[b | e] t1 c2]; cbn [prepend]; [ | reflexivity ].
  destruct (k' b w c2) as [r t2 c3]; cbn [prepend].
  now rewrite app_assoc.
Qed.

(** An exception raised by the first part of a sequence skips the rest. *)
Lemma bind_raises {A B} (m : M A) (k : A -> M B) w c e :
  res (m w c) = Raise e ->
  bind m k w c = Outcome (Raise e) (emitted (m w c)) (after (m w c)).
Proof.
  unfold bind. destruct (m w c) as [[a | e'] t c1]; cbn [res emitted after]; congruence.
Qed.

(** ** Strings *)

Lemma truthy_literal ch s : truthy (Some (String ch s)) = true.
Proof. reflexivity. Qed.

Lemma lower_single (s : string) (ch : ascii) :
  lower s = String ch EmptyString ->
  exists ch', s = String ch' EmptyString /\ lower_ascii ch' = ch.
Proof.
  destruct s as [ | ch' [ | ch'' s ] ]; cbn [lower]; intros H; try discriminate.
  injection H as H. now exists ch'.
Qed.

Lemma lower_ascii_y ch : lower_ascii ch = "y"%char <-> ch = "y"%char \/ ch = "Y"%char.
Proof.
  destruct ch as [[] [] [] [] [] [] [] []]; vm_compute;
    (split; [ intros H; first [ discriminate H | now left | now right ]
            | intros [H | H]; first [ discriminate H | reflexivity ] ]).
Qed.

Lemma lower_ascii_n ch : lower_ascii ch = "n"%char <-> ch = "n"%char \/ ch = "N"%char.
Proof.
  destruct ch as [[] [] [] [] [] [] [] []]; vm_compute;
    (split; [ intros H; first [ discriminate H | now left | now right ]
            | intros [H | H]; first [ discriminate H | reflexivity ] ]).
Qed.

(** Equal to "y" up to letter case: the input is "y" or "Y". *)
Lemma lower_yes s : lower s = "y" <-> s = "y" \/ s = "Y".
Proof.
  split.
  - intros H. apply lower_single in H as (ch & -> & H).
    apply lower_ascii_y in H as [-> | ->]; auto.
  - intros [-> | ->]; reflexivity.
Qed.

Lemma lower_no s : lower s = "n" <-> s = "n" \/ s = "N".
Proof.
  split.
  - intros H. apply lower_single in H as (ch & -> & H).
    apply lower_ascii_n in H as [-> | ->]; auto.
  - intros [-> | ->]; reflexivity.
Qed.

(** ** Symbolic execution *)

(** Unfold the script down to the answers of the world. *)
Ltac crunch :=
  cbv [status script main main_body sys_exit
       create_virtual_environment activate_virtual_environment install_dependencies
       run_initial_management_commands start_django_server get_local_ip run_command
       bind ret raise try_except print input subprocess_run os_path_exists
       sock_call sock_getsockname prepend res emitted after asked ran start
       exn_of_fault is_Exception on_interrupt exit_status];
  rewrite ?truthy_literal;
  change (truthy None) with false;
  change (0 =? 0) with true;
  cbv beta iota.

Ltac use_known :=
  match goal with
  | H : shell ?w ?n ?c = _ |- context [shell ?w ?n ?c] => rewrite !H
  | H : cooperative ?w |- context [shell ?w ?n ?c] => rewrite !(H n c)
  | H : stdin ?w ?n = _ |- context [stdin ?w ?n] => rewrite !H
  | H : sock ?w ?op = _ |- context [sock ?w ?op] => rewrite !H
  | H : path_exists ?w ?p = _ |- context [path_exists ?w ?p] => rewrite !H
  | H : lower ?s = _ |- context [lower ?s] => rewrite !H; cbn [String.eqb Ascii.eqb Bool.eqb]
  | H : truthy ?o = _ |- context [truthy ?o] => rewrite !H
  end.

Ltac case_sock w op :=
  destruct (sock w op) as [[ ? | ] | ] eqn:?.

(** Split on the answer the run is waiting for. *)
Ltac case_world :=
  match goal with
  | |- context [match shell ?w ?n ?c with _ => _ end] =>
      let rc := fresh "rc" in destruct (shell w n c) as [rc | | ?] eqn:?
  | |- context [match stdin ?w ?n with _ => _ end] =>
      let line := fresh "line" in destruct (stdin w n) as [line | [ ? | ]] eqn:?
  | |- context [if path_exists ?w ?p then _ else _] =>
      destruct (path_exists w p) eqn:?
  | |- context [if ?rc =? 0 then _ else _] =>
      destruct (Z.eqb_spec rc 0); [ subst rc | ]
  | |- context [if String.eqb ?a ?b then _ else _] =>
      destruct (String.eqb_spec a b)
  | |- context [if truthy ?o then _ else _] =>
      destruct (truthy o) eqn:?
  | |- context [match sock ?w SockCreate with _ => _ end] => case_sock w SockCreate
  | |- context [match sock ?w SockSetTimeout with _ => _ end] => case_sock w SockSetTimeout
  | |- context [match sock ?w (SockConnect ?h ?p) with _ => _ end] =>
      case_sock w (SockConnect h p)
  | |- context [match sock ?w SockGetName with _ => _ end] => case_sock w SockGetName
  | |- context [match sock ?w SockClose with _ => _ end] => case_sock w SockClose
  end.

Ltac absurd_case :=
  match goal with
  | H : ?x <> ?x |- _ => now contradiction H
  | H : ?a = ?b, H' : ?a <> ?b |- _ => now contradiction H'
  | H : uninterrupted_network ?w, H' : sock ?w ?op = Some Interrupt |- _ =>
      now contradiction (H op)
  | H : ?a = ?b |- _ => discriminate H
  end.

Ltac open_counters :=
  repeat match goal with
         | c : counters |- _ => destruct c
         end;
  cbn [ran asked after] in *.

Ltac run :=
  open_counters; crunch;
  repeat (first [ use_known | case_world; try absurd_case ]; crunch).

(** The same for a statement that mentions one run of the whole script
    several times: the run is named, executed once, and put back. *)
Ltac run_script args w :=
  unfold status;
  let o := fresh "o" in
  let E := fresh "E" in
  remember (script args w) as o eqn:E; revert E;
  run; intros ->; cbn [res emitted after exit_status].

(** ** The Command Runner *)

(** C2, as the script has it.  [run_command] calls [subprocess.run] once,
    after the "Running" line of a non-empty label.  When the child exits
    with status zero it prints the confirmation marker and returns
    normally.  When the child exits with any other status it prints the
    error detail and raises [SystemExit(1)], which none of the handlers of
    the script catches, so the process ends with status 1.  When
    [subprocess.run] fails to execute at all, [run_command] catches
    nothing: it prints neither the marker nor an error line and the
    exception of the library goes to its caller.  In no case is the
    command tried again. *)
Theorem run_command_contract :
  forall command section_name w c,
    let o := run_command command section_name w c in
    let announce :=
      if truthy section_name
      then [Printed (running_line (match section_name with Some n => n | None => "None" end))]
      else [] in
    after o = {| asked := asked c; ran := S (ran c) |} /\
    (shell w (ran c) command = Exited 0 ->
       res o = Ret tt /\
       emitted o = announce ++ [Ran command (Exited 0); Printed done_line]) /\
    (forall rc, shell w (ran c) command = Exited rc -> rc <> 0 ->
       res o = Raise (SystemExit 1) /\
       is_Exception (SystemExit 1) = false /\
       on_interrupt (SystemExit 1) = None /\
       exit_status (res o) = 1 /\
       emitted o =
         announce ++ [Ran command (Exited rc);
                      Printed (error_line (CalledProcessError rc command))]) /\
    (forall msg, shell w (ran c) command = NotStarted msg ->
       res o = Raise (Error msg) /\
       emitted o = announce ++ [Ran command (NotStarted msg)]) /\
    (shell w (ran c) command = Interrupted ->
       res o = Raise KeyboardInterrupt /\
       emitted o = announce ++ [Ran command Interrupted]).
Proof.
  intros command section_name w c o announce. subst o announce.
  destruct section_name as [ [ | ch name ] | ];
    rewrite ?truthy_literal; cbn [truthy String.eqb negb].
  all: run; repeat split; intros; try congruence; try absurd_case.
  all: match goal with
       | H : Exited _ = Exited _ |- _ => injection H as H; subst
       | H : NotStarted _ = NotStarted _ |- _ => injection H as H; subst
       end; try congruence; repeat split; reflexivity.
Qed.

(** ** Failing commands are fatal *)

Ltac inspect_members H :=
  cbn [In] in H;
  repeat (destruct H as [H | H];
          [ first [ discriminate H | injection H as <- <-; congruence ] | ]);
  try contradiction H.

(** In every run of the script, a command that does not exit with status
    zero ends the process with status 1. *)
Lemma failed_command_is_fatal :
  forall args w command p,
    In (Ran command p) (emitted (script args w)) ->
    p <> Exited 0 ->
    status args w = 1.
Proof.
  intros args w command p HIn Hp. revert HIn.
  run_script args w; intros HIn; try reflexivity; exfalso; inspect_members HIn.
Qed.

(** ** The Project Bootstrapper *)

(** C3. [run_initial_management_commands] issues makemigrations, migrate
    and collectstatic in this order, one [run_command] each.  When all
    three exit with status zero it returns normally.  When one of them
    exits with another status, it is the last command issued, the
    bootstrapper raises [SystemExit(1)], and in every run of the script a
    command that fails ends the process with status 1. *)
Theorem bootstrap_stops_at_first_failure :
  forall venv project w c,
    let o := run_initial_management_commands venv project w c in
    let makemigrations := manage_command venv project "makemigrations" in
    let migrate := manage_command venv project "migrate" in
    let collectstatic := manage_command venv project "collectstatic --noinput" in
    let n := ran c in
    (shell w n makemigrations = Exited 0 ->
     shell w (S n) migrate = Exited 0 ->
     shell w (S (S n)) collectstatic = Exited 0 ->
       res o = Ret tt /\
       commands (emitted o) = [makemigrations; migrate; collectstatic]) /\
    (forall rc, shell w n makemigrations = Exited rc -> rc <> 0 ->
       res o = Raise (SystemExit 1) /\
       commands (emitted o) = [makemigrations]) /\
    (forall rc, shell w n makemigrations = Exited 0 ->
       shell w (S n) migrate = Exited rc -> rc <> 0 ->
       res o = Raise (SystemExit 1) /\
       commands (emitted o) = [makemigrations; migrate]) /\
    (forall rc, shell w n makemigrations = Exited 0 ->
       shell w (S n) migrate = Exited 0 ->
       shell w (S (S n)) collectstatic = Exited rc -> rc <> 0 ->
       res o = Raise (SystemExit 1) /\
       commands (emitted o) = [makemigrations; migrate; collectstatic]) /\
    (forall args w' command p,
       In (Ran command p) (emitted (script args w')) -> p <> Exited 0 ->
       status args w' = 1).
Proof.
  intros venv project w c o makemigrations migrate collectstatic n.
  subst o makemigrations migrate collectstatic n.
  repeat split; intros; try (eapply failed_command_is_fatal; eassumption).
  all: run; reflexivity.
Qed.

(** ** The order of the commands *)

Ltac choose_tail args :=
  first [ exists (@nil string); split; [ now left | reflexivity ]
        | exists [runserver_local args]; split; [ right; now left | reflexivity ]
        | exists [runserver_all args]; split; [ right; right; now left | reflexivity ] ].

Ltac choose_prefix args :=
  cbn [commands];
  first [ exists 0%nat; choose_tail args | exists 1%nat; choose_tail args
        | exists 2%nat; choose_tail args | exists 3%nat; choose_tail args
        | exists 4%nat; choose_tail args | exists 5%nat; choose_tail args
        | exists 6%nat; choose_tail args | exists 7%nat; choose_tail args ].

(** C1, as the script has it.  When no environment exists, the commands of
    a run that completes are: create the environment, run the activate
    script, install the requirements, makemigrations, migrate,
    collectstatic, and then nothing, runserver, or runserver on all
    interfaces.  A run that stops early has issued a prefix of that
    sequence, so on every path the environment is created before anything
    is installed. *)
Theorem fresh_run_command_order :
  forall args w,
    path_exists w venv_path = false ->
    (exists k tail,
        In tail (launch_choices args) /\
        commands (emitted (script args w)) = firstn k (fresh_sequence args ++ tail)) /\
    (res (script args w) = Ret tt ->
     exists tail,
        In tail (launch_choices args) /\
        commands (emitted (script args w)) = fresh_sequence args ++ tail).
Proof.
  intros args w Hfresh.
  run.
  all: split;
    [ choose_prefix args
    | intros Hres; try discriminate Hres; cbn [commands]; choose_tail args ].
Qed.

(** ** The prompts *)

(** Bring the answers typed at a prompt to the form the script tests. *)
Ltac read_answers :=
  repeat match goal with
         | H : ?a = "y" \/ ?a = "Y" |- _ => apply lower_yes in H
         | H : ?a = "n" \/ ?a = "N" |- _ => apply lower_no in H
         | H : ~ (?a = "y" \/ ?a = "Y") |- _ =>
             assert (lower a <> "y") by (intros E; apply H, lower_yes, E); clear H
         | H : ~ (?a = "n" \/ ?a = "N") |- _ =>
             assert (lower a <> "n") by (intros E; apply H, lower_no, E); clear H
         end.

(** C4. The environment exists, the user answers "n" to the reinstall
    prompt and anything but "y" to the run-anyway prompt: the run consists
    of the two prompts and the closing line, issues no command and ends
    with [sys.exit(0)]. *)
Theorem declining_both_prompts_exits_cleanly :
  forall args w a b,
    path_exists w venv_path = true ->
    stdin w 0 = Ok a -> (a = "n" \/ a = "N") ->
    stdin w 1 = Ok b -> ~ (b = "y" \/ b = "Y") ->
    emitted (script args w) =
      [Asked reinstall_prompt (Ok a); Asked anyway_prompt (Ok b); Printed skipped_line] /\
    commands (emitted (script args w)) = [] /\
    res (script args w) = Raise (SystemExit 0) /\
    status args w = 0.
Proof.
  intros args w a b Hvenv Ha Hno Hb Hnot. read_answers.
  run. repeat split; reflexivity.
Qed.

(** C10. At the reinstall prompt only "n" or "N" declines: after any other
    answer the next thing the script does is to create the environment
    again.  At the run-anyway prompt only "y" or "Y" accepts: then the
    bootstrap starts, and after any other answer the run ends with status
    0. *)
Theorem reinstall_prompt_declines_only_on_n :
  forall args w a,
    path_exists w venv_path = true ->
    stdin w 0 = Ok a ->
    (~ (a = "n" \/ a = "N") ->
       firstn 3 (emitted (script args w)) =
         [Asked reinstall_prompt (Ok a);
          Printed creating_line;
          Ran (venv_command venv_path) (shell w 0 (venv_command venv_path))]) /\
    ((a = "n" \/ a = "N") ->
       forall b, stdin w 1 = Ok b ->
         ((b = "y" \/ b = "Y") ->
            firstn 5 (emitted (script args w)) =
              [Asked reinstall_prompt (Ok a);
               Asked anyway_prompt (Ok b);
               Printed management_line;
               Printed (running_line "makemigrations");
               Ran (manage_command venv_path (project_dir args) "makemigrations")
                   (shell w 0 (manage_command venv_path (project_dir args) "makemigrations"))]) /\
         (~ (b = "y" \/ b = "Y") ->
            emitted (script args w) =
              [Asked reinstall_prompt (Ok a); Asked anyway_prompt (Ok b);
               Printed skipped_line] /\
            status args w = 0)).
Proof.
  intros args w a Hvenv Ha. split; [ intros Hn | intros Hn b Hb; split; intros Hy ];
    read_answers.
  - destruct (shell w 0 (venv_command venv_path)) as [rc | | msg] eqn:Hcreate;
      [ destruct (Z.eqb_spec rc 0) | | ]; run; reflexivity.
  - destruct (shell w 0 (manage_command venv_path (project_dir args) "makemigrations"))
      as [rc | | msg] eqn:Hfirst;
      [ destruct (Z.eqb_spec rc 0) | | ]; run; reflexivity.
  - run. split; reflexivity.
Qed.

(** ** The Server Launcher *)

(** C7. Each of the two prompts of [start_django_server] takes "y" and "Y"
    for yes and every other input for no.  At the first prompt, yes leads
    to the second prompt and no ends the launcher at once.  At the second
    prompt, yes leads to the warning and to the server on all interfaces,
    no leads to the plain [runserver] without any socket call. *)
Theorem launcher_prompts_accept_only_y :
  forall venv project w c a,
    stdin w (asked c) = Ok a ->
    let o := start_django_server venv project w c in
    (~ (a = "y" \/ a = "Y") ->
       emitted o = [Asked start_prompt (Ok a)] /\ res o = Ret tt) /\
    ((a = "y" \/ a = "Y") ->
       firstn 1 (prompts (emitted o)) = [start_prompt] /\
       nth_error (prompts (emitted o)) 1 = Some expose_prompt /\
       forall b, stdin w (S (asked c)) = Ok b ->
         ((b = "y" \/ b = "Y") ->
            firstn 4 (emitted o) =
              [Asked start_prompt (Ok a); Asked expose_prompt (Ok b);
               Printed warning_line; Printed measures_line] /\
            (uninterrupted_network w ->
               commands (emitted o) = [manage_command venv project "runserver 0.0.0.0:80"])) /\
         (~ (b = "y" \/ b = "Y") ->
            firstn 3 (emitted o) =
              [Asked start_prompt (Ok a); Asked expose_prompt (Ok b);
               Printed (running_line "Django server")] /\
            commands (emitted o) = [manage_command venv project "runserver"] /\
            sock_ops (emitted o) = [])).
Proof.
  intros venv project w c a Ha o. subst o.
  split; [ intros Hy | intros Hy; split; [ | split; [ | intros b Hb; split; intros Hb' ] ] ];
    read_answers.
  - run. split; reflexivity.
  - run; reflexivity.
  - run; reflexivity.
  - split; [ | intros Hnet ]; run; reflexivity.
  - run; repeat split; reflexivity.
Qed.

(** C8. An answer other than "y" or "Y" to the start prompt ends the
    launcher after that one prompt, with no command issued and no second
    prompt; and the run still completes with status 0 and its closing
    line, on each of the three paths that reach the launcher. *)
Theorem declining_start_issues_no_server :
  (forall venv project w c a,
      stdin w (asked c) = Ok a -> ~ (a = "y" \/ a = "Y") ->
      start_django_server venv project w c =
        Outcome (Ret tt) [Asked start_prompt (Ok a)]
                {| asked := S (asked c); ran := ran c |}) /\
  (forall args w a,
      cooperative w ->
      path_exists w venv_path = false ->
      stdin w 0 = Ok a -> ~ (a = "y" \/ a = "Y") ->
      res (script args w) = Ret tt /\
      status args w = 0 /\
      commands (emitted (script args w)) = fresh_sequence args /\
      prompts (emitted (script args w)) = [start_prompt] /\
      last (emitted (script args w)) (Printed "") = Printed success_line) /\
  (forall args w r a,
      cooperative w ->
      path_exists w venv_path = true ->
      stdin w 0 = Ok r -> ~ (r = "n" \/ r = "N") ->
      stdin w 1 = Ok a -> ~ (a = "y" \/ a = "Y") ->
      res (script args w) = Ret tt /\
      status args w = 0 /\
      commands (emitted (script args w)) = fresh_sequence args /\
      prompts (emitted (script args w)) = [reinstall_prompt; start_prompt] /\
      last (emitted (script args w)) (Printed "") = Printed success_line) /\
  (forall args w r m a,
      cooperative w ->
      path_exists w venv_path = true ->
      stdin w 0 = Ok r -> (r = "n" \/ r = "N") ->
      stdin w 1 = Ok m -> (m = "y" \/ m = "Y") ->
      stdin w 2 = Ok a -> ~ (a = "y" \/ a = "Y") ->
      res (script args w) = Raise (SystemExit 0) /\
      status args w = 0 /\
      commands (emitted (script args w)) =
        bootstrap_commands venv_path (project_dir args) /\
      prompts (emitted (script args w)) = [reinstall_prompt; anyway_prompt; start_prompt] /\
      last (emitted (script args w)) (Printed "") = Printed skipped_line).
Proof.
  repeat split; intros; read_answers; run; reflexivity.
Qed.

(** ** Local address discovery *)

(** [get_local_ip] touches neither the terminal nor the shell. *)
Lemma get_local_ip_after w c :
  after (get_local_ip w c) = c /\
  commands (emitted (get_local_ip w c)) = [] /\
  prompts (emitted (get_local_ip w c)) = [].
Proof. run; repeat split; reflexivity. Qed.

(** X10. The socket is closed exactly when the four calls before
    [s.close()] all succeed: no failure path of the lookup reaches the
    close. *)
Lemma socket_closed_only_after_lookup w c :
  In SockClose (sock_ops (emitted (get_local_ip w c))) <->
  sock w SockCreate = None /\
  sock w SockSetTimeout = None /\
  sock w (SockConnect "8.8.8.8" 80) = None /\
  sock w SockGetName = None.
Proof using str.
  run; cbn [app sock_ops In].
  all: split;
    [ intros Hin;
      repeat (destruct Hin as [Hin | Hin]; [ try discriminate Hin | ]);
      try contradiction Hin; repeat split; reflexivity
    | intros (H1 & H2 & H3 & H4); try discriminate;
      repeat (first [ left; reflexivity | right ]) ].
Qed.


(** ** Interrupts *)

Ltac split_last_two :=
  match goal with
  | |- exists t ev, ?l = _ /\ _ =>
      exists (firstn (length l - 2) l), (nth (length l - 2) l (Printed ""))
  end.

(** C9. Whenever Ctrl-C arrives during a prompt, a command or a socket
    call of a run, that event is the last one of the script proper and the
    only interrupted one; the handler of [main] prints its line once, right
    after it, and the process ends with status 1. *)
Theorem interrupt_is_caught_at_top_level :
  forall args w,
    existsb interrupted (emitted (script args w)) = true ->
    res (script args w) = Raise (SystemExit 1) /\
    status args w = 1 /\
    exists t ev,
      emitted (script args w) = t ++ [ev; Printed interrupt_line] /\
      interrupted ev = true /\
      existsb interrupted t = false.
Proof.
  intros args w.
  run_script args w; intros Hint; try discriminate Hint.
  all: split; [ reflexivity | split; [ reflexivity | ] ].
  all: split_last_two; repeat split; reflexivity.
Qed.

(** ** Exit status *)

(** Once the arguments are parsed, a run ends with status 0 or 1. *)
Lemma status_is_zero_or_one :
  forall args w, status args w = 0 \/ status args w = 1.
Proof.
  intros args w. run_script args w; auto.
Qed.

(** With parsed arguments [main] is the run studied so far. *)
Lemma main_cli_parsed args w c : main_cli (Parsed args) w c = main args w c.
Proof.
  unfold main_cli, main, try_except, parse_args. now rewrite bind_ret.
Qed.

(** X1. Every run of [main] ends with status 0, 1 or 2, and with status 2
    exactly when argparse rejects the command line. *)
Theorem cli_status_is_zero_one_or_two :
  forall p w,
    (status_cli p w = 0 \/ status_cli p w = 1 \/ status_cli p w = 2) /\
    (status_cli p w = 2 <-> p = UsageError).
Proof.
  intros p w. unfold status_cli.
  destruct p as [ args | | ].
  - rewrite main_cli_parsed. change (exit_status (res (main args w start)))
      with (status args w).
    destruct (status_is_zero_or_one args w) as [ -> | -> ];
      (split; [ auto | split; intros H; discriminate H ]).
  - split; [ left; reflexivity | split; intros H; discriminate H ].
  - split; [ right; right; reflexivity | split; reflexivity ].
Qed.

(** X2. End of file at any prompt is not handled: the [EOFError] of
    [input()] reaches the top, the prompt is the last event of the run and
    the process ends with status 1. *)
Theorem eof_at_prompt_is_fatal :
  forall args w prompt msg,
    In (Asked prompt (Fault (Err msg))) (emitted (script args w)) ->
    res (script args w) = Raise (Error msg) /\
    status args w = 1 /\
    last (emitted (script args w)) (Printed "") = Asked prompt (Fault (Err msg)).
Proof.
  intros args w prompt msg.
  run_script args w; cbn [app In last]; intros HIn.
  all: repeat (destruct HIn as [HIn | HIn];
               [ first [ discriminate HIn
                       | injection HIn as <- <-; repeat split; reflexivity ] | ]);
    try contradiction HIn.
Qed.

(** Once the arguments are parsed, a run ends with status 0 exactly when
    its last event is one of the two closing lines. *)
Lemma status_zero_iff_closing_line :
  forall args w,
    status args w = 0 <->
    (last (emitted (script args w)) (Printed "") = Printed success_line \/
     last (emitted (script args w)) (Printed "") = Printed skipped_line).
Proof.
  intros args w.
  run_script args w; cbn [app last].
  all: split; [ intros H; first [ discriminate H | now left | now right ] | ].
  all: intros [H | H]; try reflexivity; exfalso.
  all: discriminate H.
Qed.

(** X3. A run of [main] ends with status 0 exactly when argparse shows its
    help, or the last event of the run is one of the two closing lines:
    the success line, or the line of the run that skipped the
    reinstallation. *)
Theorem cli_status_zero_iff_help_or_closing_line :
  forall p w,
    status_cli p w = 0 <->
    (p = HelpRequested \/
     last (emitted (main_cli p w start)) (Printed "") = Printed success_line \/
     last (emitted (main_cli p w start)) (Printed "") = Printed skipped_line).
Proof.
  intros p w. unfold status_cli.
  destruct p as [ args | | ].
  - rewrite main_cli_parsed. change (main args w start) with (script args w).
    change (exit_status (res (script args w))) with (status args w).
    rewrite status_zero_iff_closing_line.
    split; [ intros H; right; exact H | intros [H | H]; [ discriminate H | exact H ] ].
  - split; [ intros _; left; reflexivity | intros _; reflexivity ].
  - split; [ intros H; discriminate H | ].
    intros [H | [H | H]]; discriminate H.
Qed.

(** ** The other paths of the orchestrator *)

(** X4. When the environment exists and the answer to the reinstall prompt
    is not "n" or "N", the commands are those of a run from a fresh state:
    a prefix of create, activate, install, makemigrations, migrate,
    collectstatic and an optional runserver, starting with the creation
    command; nothing is issued to remove the old environment first. *)
Theorem reinstall_run_command_order :
  forall args w a,
    path_exists w venv_path = true ->
    stdin w 0 = Ok a -> ~ (a = "n" \/ a = "N") ->
    (exists k tail,
        In tail (launch_choices args) /\
        commands (emitted (script args w)) = firstn k (fresh_sequence args ++ tail)) /\
    (res (script args w) = Ret tt ->
     exists tail,
        In tail (launch_choices args) /\
        commands (emitted (script args w)) = fresh_sequence args ++ tail).
Proof.
  intros args w a Hvenv Ha Hn. read_answers.
  run.
  all: split;
    [ choose_prefix args
    | intros Hres; try discriminate Hres; cbn [commands]; choose_tail args ].
Qed.

(** X5. On the path that skips the reinstallation and runs the management
    commands anyway, no provisioning command is issued: the commands are a
    prefix of makemigrations, migrate, collectstatic and an optional
    runserver.  The run never returns normally; when it ends with status 0
    it has issued the three commands and its last line is the skipped
    line. *)
Theorem skip_run_command_order :
  forall args w a b,
    path_exists w venv_path = true ->
    stdin w 0 = Ok a -> (a = "n" \/ a = "N") ->
    stdin w 1 = Ok b -> (b = "y" \/ b = "Y") ->
    (exists k tail,
        In tail (launch_choices args) /\
        commands (emitted (script args w)) =
          firstn k (bootstrap_commands venv_path (project_dir args) ++ tail)) /\
    res (script args w) <> Ret tt /\
    (status args w = 0 ->
     res (script args w) = Raise (SystemExit 0) /\
     last (emitted (script args w)) (Printed "") = Printed skipped_line /\
     exists tail,
        In tail (launch_choices args) /\
        commands (emitted (script args w)) =
          bootstrap_commands venv_path (project_dir args) ++ tail).
Proof.
  intros args w a b Hvenv Ha Hn Hb Hy. read_answers.
  run_script args w.
  all: split; [ choose_prefix args | split; [ discriminate | ] ].
  all: intros Hs; try discriminate Hs.
  all: split; [ reflexivity | split; [ reflexivity | cbn [commands app]; choose_tail args ] ].
Qed.

(** X6. A provisioning command (create the environment, run the activate
    script, install the requirements) that exits with a non-zero status is
    the last command of the run: nothing after it is issued, no prompt is
    shown, and the process ends with status 1 after the error line. *)
Theorem provisioning_failure_stops_run :
  forall args w k rc,
    path_exists w venv_path = false ->
    (k < 3)%nat ->
    (forall j, (j < k)%nat ->
       shell w j (nth j (provision_commands args) "") = Exited 0) ->
    shell w k (nth k (provision_commands args) "") = Exited rc ->
    rc <> 0 ->
    commands (emitted (script args w)) = firstn (S k) (provision_commands args) /\
    prompts (emitted (script args w)) = [] /\
    res (script args w) = Raise (SystemExit 1) /\
    status args w = 1 /\
    last (emitted (script args w)) (Printed "") =
      Printed (error_line (CalledProcessError rc (nth k (provision_commands args) ""))).
Proof.
  intros args w k rc Hfresh Hk Hprev Hfail Hrc.
  destruct k as [ | [ | [ | k ] ] ]; [ | | | lia ].
  - cbn [nth provision_commands] in *.
    run; repeat split; reflexivity.
  - pose proof (Hprev 0%nat ltac:(lia)) as H0.
    cbn [nth provision_commands] in *.
    run; repeat split; reflexivity.
  - pose proof (Hprev 0%nat ltac:(lia)) as H0.
    pose proof (Hprev 1%nat ltac:(lia)) as H1.
    cbn [nth provision_commands] in *.
    run; repeat split; reflexivity.
Qed.

(** X7. In a run that starts without an environment the reinstall and
    run-anyway prompts are never shown; the prompts are a prefix of the
    start prompt and the expose prompt, and a prompt is shown only after
    the six setup commands have all been issued. *)
Theorem fresh_run_prompts :
  forall args w,
    path_exists w venv_path = false ->
    (exists k, prompts (emitted (script args w)) = firstn k [start_prompt; expose_prompt]) /\
    (prompts (emitted (script args w)) <> [] ->
     firstn 6 (commands (emitted (script args w))) = fresh_sequence args).
Proof.
  intros args w Hfresh.
  run_script args w; cbn [app prompts commands firstn].
  all: split;
    [ first [ now exists 0%nat | now exists 1%nat | now exists 2%nat ]
    | intros H; first [ now contradiction H | reflexivity ] ].
Qed.

(** ** More on the Command Runner *)

(** X8. An empty section name counts as no section name: [run_command]
    then prints no "Running" line.  With a non-empty name it prints that
    line first and otherwise behaves as without a name. *)
Theorem run_command_label :
  forall command name w c,
    run_command command (Some name) w c =
      if String.eqb name ""
      then run_command command None w c
      else prepend [Printed (running_line name)] (run_command command None w c).
Proof.
  intros command name w c.
  destruct name as [ | ch name ]; cbn [String.eqb]; run; reflexivity.
Qed.

(** ** More on the address discovery *)

(** X9. When its five socket calls succeed, [get_local_ip] makes exactly
    these calls in program order, the last one being the close, prints
    nothing, and returns the address the socket reports. *)
Theorem get_local_ip_success :
  forall w c,
    (forall op, In op discovery_ops -> sock w op = None) ->
    get_local_ip w c =
      Outcome (Ret (Some (local_addr w)))
              (map (fun op => SockCall op None) discovery_ops) c.
Proof using str.
  intros w c Hup.
  assert (H1 : sock w SockCreate = None) by (apply Hup; cbn [discovery_ops In]; repeat (first [ left; reflexivity | right ])).
  assert (H2 : sock w SockSetTimeout = None) by (apply Hup; cbn [discovery_ops In]; repeat (first [ left; reflexivity | right ])).
  assert (H3 : sock w (SockConnect "8.8.8.8" 80) = None) by (apply Hup; cbn [discovery_ops In]; repeat (first [ left; reflexivity | right ])).
  assert (H4 : sock w SockGetName = None) by (apply Hup; cbn [discovery_ops In]; repeat (first [ left; reflexivity | right ])).
  assert (H5 : sock w SockClose = None) by (apply Hup; cbn [discovery_ops In]; repeat (first [ left; reflexivity | right ])).
  clear Hup. run. reflexivity.
Qed.

(** X11. On the all-interfaces path, when the lookup succeeds, the line
    printed right after the socket is closed announces the address, unless
    the address found is the empty string, which counts as no address: then
    the launcher prints that the address could not be determined, although
    no error occurred. *)
Theorem empty_address_counts_as_unknown :
  forall venv project w c a b,
    stdin w (asked c) = Ok a -> (a = "y" \/ a = "Y") ->
    stdin w (S (asked c)) = Ok b -> (b = "y" \/ b = "Y") ->
    (forall op, In op discovery_ops -> sock w op = None) ->
    firstn 10 (emitted (start_django_server venv project w c)) =
      [Asked start_prompt (Ok a); Asked expose_prompt (Ok b);
       Printed warning_line; Printed measures_line]
      ++ map (fun op => SockCall op None) discovery_ops
      ++ [Printed (if String.eqb (local_addr w) ""
                   then unable_line
                   else access_line (local_addr w))].
Proof using os_path_join str.
  intros venv project w c a b Ha Hy Hb Hy' Hup. read_answers.
  assert (H1 : sock w SockCreate = None) by (apply Hup; cbn [discovery_ops In]; repeat (first [ left; reflexivity | right ])).
  assert (H2 : sock w SockSetTimeout = None) by (apply Hup; cbn [discovery_ops In]; repeat (first [ left; reflexivity | right ])).
  assert (H3 : sock w (SockConnect "8.8.8.8" 80) = None) by (apply Hup; cbn [discovery_ops In]; repeat (first [ left; reflexivity | right ])).
  assert (H4 : sock w SockGetName = None) by (apply Hup; cbn [discovery_ops In]; repeat (first [ left; reflexivity | right ])).
  assert (H5 : sock w SockClose = None) by (apply Hup; cbn [discovery_ops In]; repeat (first [ left; reflexivity | right ])).
  clear Hup.
  destruct (String.eqb (local_addr w) "") eqn:Haddr.
  - assert (Ht : truthy (Some (local_addr w)) = false) by (cbn [truthy]; now rewrite Haddr).
    run; reflexivity.
  - assert (Ht : truthy (Some (local_addr w)) = true) by (cbn [truthy]; now rewrite Haddr).
    run; reflexivity.
Qed.

(** X12. The script opens a socket only with consent: whenever a run makes
    a socket call, the start prompt and the expose prompt were both shown
    and both answered "y" or "Y". *)
Theorem socket_only_after_consent :
  forall args w,
    sock_ops (emitted (script args w)) <> [] ->
    exists a b,
      In (Asked start_prompt (Ok a)) (emitted (script args w)) /\
      In (Asked expose_prompt (Ok b)) (emitted (script args w)) /\
      (a = "y" \/ a = "Y") /\
      (b = "y" \/ b = "Y").
Proof.
  intros args w.
  run_script args w; cbn [app sock_ops In]; intros Hsock;
    try (now contradiction Hsock).
  all: match goal with
       | Ha : lower ?a = "y", Hb : lower ?b = "y" |- _ =>
           exists a, b;
           split; [ tauto | split; [ tauto | split; apply lower_yes; assumption ] ]
       end.
Qed.

End Script.

(** ** The script on a sample platform *)

(** C6. With the network down, [s.connect] raises: the trace of
    [get_local_ip] has the socket created and no [s.close()], and the
    function returns [None]. *)
Theorem socket_left_open_when_connect_fails :
  res (get_local_ip sample_str offline_world start) = Ret None /\
  sock_ops (emitted (get_local_ip sample_str offline_world start)) =
    [SockCreate; SockSetTimeout; SockConnect "8.8.8.8" 80] /\
  ~ In SockClose (sock_ops (emitted (get_local_ip sample_str offline_world start))).
Proof.
  repeat split; try reflexivity.
  vm_compute. intros [H | [H | [H | []]]]; discriminate H.
Qed.

(** C1, as the specification words it, fails: in a complete run from a
    fresh state the second command is the activate script, so the commands
    are not create, install, makemigrations, migrate, collectstatic
    followed by anything. *)
Lemma spec_sequence_misses_activation :
  path_exists fresh_world (venv_path sample_dir sample_join) = false /\
  res (script sample_dir sample_join sample_str sample_args fresh_world) = Ret tt /\
  nth_error (commands (emitted (script sample_dir sample_join sample_str sample_args
                                       fresh_world))) 1
    = Some "C:\tools\venv\Scripts\activate" /\
  forall tail,
    commands (emitted (script sample_dir sample_join sample_str sample_args fresh_world))
    <> spec_sequence sample_dir sample_join sample_args ++ tail.
Proof.
  repeat split; try reflexivity.
  intros tail H. vm_compute in H. discriminate H.
Qed.

(** C2, as the claim words it, fails when the execution itself fails: the
    shell cannot be started, [subprocess.run] raises, and [run_command]
    prints nothing and ends with that exception, not with an exit. *)
Lemma run_command_lets_spawn_failure_through :
  shell unspawnable_world 0 "python -m venv venv" =
    NotStarted "[Errno 2] No such file or directory: '/bin/sh'" /\
  res (run_command sample_str "python -m venv venv" None unspawnable_world start) =
    Raise (Error "[Errno 2] No such file or directory: '/bin/sh'") /\
  emitted (run_command sample_str "python -m venv venv" None unspawnable_world start) =
    [Ran "python -m venv venv"
         (NotStarted "[Errno 2] No such file or directory: '/bin/sh'")] /\
  forall code,
    res (run_command sample_str "python -m venv venv" None unspawnable_world start)
    <> Raise (SystemExit code).
Proof.
  repeat split; try reflexivity.
  intros code H. discriminate H.
Qed.


(** ** The theorems at work on the sample worlds *)

(** A command that exits with 0, one that exits with 1, and one for which
    the shell cannot be started. *)
Lemma run_command_contract_witness :
  (shell fresh_world 0 "pip list" = Exited 0 /\
   res (run_command sample_str "pip list" None fresh_world start) = Ret tt) /\
  (shell broken_migration_world 4 "migrate" = Exited 1 /\
   1 <> 0 /\
   res (run_command sample_str "migrate" (Some "migrate") broken_migration_world
          {| asked := 0; ran := 4 |}) = Raise (SystemExit 1)) /\
  (shell unspawnable_world 0 "pip list" =
     NotStarted "[Errno 2] No such file or directory: '/bin/sh'" /\
   res (run_command sample_str "pip list" None unspawnable_world start) =
     Raise (Error "[Errno 2] No such file or directory: '/bin/sh'")).
Proof.
  split; [ | split ].
  - split; [ reflexivity | ].
    apply (run_command_contract sample_str "pip list" None fresh_world start).
    reflexivity.
  - split; [ reflexivity | split; [ discriminate | ] ].
    apply (run_command_contract sample_str "migrate" (Some "migrate")
             broken_migration_world {| asked := 0; ran := 4 |}) with (rc := 1).
    + reflexivity.
    + discriminate.
  - split; [ reflexivity | ].
    destruct (run_command_contract sample_str "pip list" None unspawnable_world start)
      as (_ & _ & _ & H & _).
    apply (H "[Errno 2] No such file or directory: '/bin/sh'"). reflexivity.
Defined.

(** The bootstrap when migrate exits with status 1. *)
Lemma bootstrap_stops_at_first_failure_witness :
  let venv := venv_path sample_dir sample_join in
  let at_bootstrap := {| asked := 0%nat; ran := 3%nat |} in
  let o := run_initial_management_commands sample_join sample_str venv "shop"
             broken_migration_world at_bootstrap in
  shell broken_migration_world 3 (manage_command sample_join venv "shop" "makemigrations")
    = Exited 0 /\
  shell broken_migration_world 4 (manage_command sample_join venv "shop" "migrate")
    = Exited 1 /\
  1 <> 0 /\
  res o = Raise (SystemExit 1) /\
  commands (emitted o) =
    [manage_command sample_join venv "shop" "makemigrations";
     manage_command sample_join venv "shop" "migrate"].
Proof.
  intros venv at_bootstrap o.
  split; [ reflexivity | split; [ reflexivity | split; [ discriminate | ] ] ].
  apply (bootstrap_stops_at_first_failure sample_dir sample_join sample_str venv "shop"
           broken_migration_world at_bootstrap) with (rc := 1).
  - reflexivity.
  - reflexivity.
  - discriminate.
Defined.

(** A complete run from a fresh state. *)
Lemma fresh_run_command_order_witness :
  path_exists fresh_world (venv_path sample_dir sample_join) = false /\
  exists tail,
    In tail (launch_choices sample_dir sample_join sample_args) /\
    commands (emitted (script sample_dir sample_join sample_str sample_args fresh_world)) =
      fresh_sequence sample_dir sample_join sample_args ++ tail.
Proof.
  split; [ reflexivity | ].
  apply (fresh_run_command_order sample_dir sample_join sample_str sample_args fresh_world);
    reflexivity.
Defined.

(** "N" at the first prompt, "later" at the second. *)
Lemma declining_both_prompts_exits_cleanly_witness :
  path_exists declining_world (venv_path sample_dir sample_join) = true /\
  stdin declining_world 0 = Ok "N" /\
  stdin declining_world 1 = Ok "later" /\
  commands (emitted (script sample_dir sample_join sample_str sample_args declining_world))
    = [] /\
  status sample_dir sample_join sample_str sample_args declining_world = 0.
Proof.
  split; [ reflexivity | split; [ reflexivity | split; [ reflexivity | ] ] ].
  destruct (declining_both_prompts_exits_cleanly sample_dir sample_join sample_str
              sample_args declining_world "N" "later") as (_ & Hcommands & _ & Hstatus).
  - reflexivity.
  - reflexivity.
  - right; reflexivity.
  - reflexivity.
  - intros [H | H]; discriminate H.
  - split; [ exact Hcommands | exact Hstatus ].
Defined.

(** Enter alone at the reinstall prompt recreates the environment; "n" then
    "Y" goes to the bootstrap. *)
Lemma reinstall_prompt_declines_only_on_n_witness :
  (path_exists enter_world (venv_path sample_dir sample_join) = true /\
   stdin enter_world 0 = Ok "" /\
   firstn 3 (emitted (script sample_dir sample_join sample_str sample_args enter_world)) =
     [Asked reinstall_prompt (Ok "");
      Printed creating_line;
      Ran (venv_command (venv_path sample_dir sample_join))
          (shell enter_world 0 (venv_command (venv_path sample_dir sample_join)))]) /\
  (path_exists bootstrap_only_world (venv_path sample_dir sample_join) = true /\
   stdin bootstrap_only_world 0 = Ok "n" /\
   stdin bootstrap_only_world 1 = Ok "Y" /\
   nth_error
     (emitted (script sample_dir sample_join sample_str sample_args bootstrap_only_world)) 4 =
     Some (Ran "C:\tools\venv\Scripts\python shop\manage.py makemigrations" (Exited 0))).
Proof.
  split.
  - split; [ reflexivity | split; [ reflexivity | ] ].
    apply (reinstall_prompt_declines_only_on_n sample_dir sample_join sample_str sample_args
             enter_world "").
    + reflexivity.
    + reflexivity.
    + intros [H | H]; discriminate H.
  - do 3 (split; [ reflexivity | ]).
    destruct (reinstall_prompt_declines_only_on_n sample_dir sample_join sample_str
                sample_args bootstrap_only_world "n" eq_refl eq_refl) as (_ & H).
    destruct (H (or_introl eq_refl) "Y" eq_refl) as (Hyes & _).
    specialize (Hyes (or_intror eq_refl)).
    change 4%nat with (0 + 4)%nat.
    rewrite <- (firstn_skipn 5
      (emitted (script sample_dir sample_join sample_str sample_args bootstrap_only_world))).
    rewrite Hyes. reflexivity.
Defined.

(** "no" at the start prompt ends the launcher; "Y" then "y" exposes the
    server. *)
Lemma launcher_prompts_accept_only_y_witness :
  let venv := venv_path sample_dir sample_join in
  (stdin bootstrap_only_world 2 = Ok "no" /\
   emitted (start_django_server sample_join sample_str venv "shop" bootstrap_only_world
              {| asked := 2; ran := 3 |}) = [Asked start_prompt (Ok "no")]) /\
  (stdin offline_world 0 = Ok "Y" /\
   stdin offline_world 1 = Ok "y" /\
   uninterrupted_network offline_world /\
   commands (emitted (start_django_server sample_join sample_str venv "shop" offline_world
                        {| asked := 0; ran := 6 |})) =
     [manage_command sample_join venv "shop" "runserver 0.0.0.0:80"]).
Proof.
  intros venv. split.
  - split; [ reflexivity | ].
    apply (launcher_prompts_accept_only_y sample_join sample_str venv "shop"
             bootstrap_only_world {| asked := 2; ran := 3 |} "no").
    + reflexivity.
    + intros [H | H]; discriminate H.
  - assert (Hnet : uninterrupted_network offline_world)
      by (intros op; destruct op; discriminate).
    do 2 (split; [ reflexivity | ]). split; [ exact Hnet | ].
    destruct (launcher_prompts_accept_only_y sample_join sample_str venv "shop"
                offline_world {| asked := 0; ran := 6 |} "Y" eq_refl) as (_ & H).
    destruct (H (or_intror eq_refl)) as (_ & _ & Hexpose).
    destruct (Hexpose "y" eq_refl) as (Hyes & _).
    destruct (Hyes (or_introl eq_refl)) as (_ & Hcommands).
    exact (Hcommands Hnet).
Defined.

(** Bootstrap without reinstalling, then "no" at the start prompt. *)
Lemma declining_start_issues_no_server_witness :
  cooperative bootstrap_only_world /\
  path_exists bootstrap_only_world (venv_path sample_dir sample_join) = true /\
  stdin bootstrap_only_world 0 = Ok "n" /\
  stdin bootstrap_only_world 1 = Ok "Y" /\
  stdin bootstrap_only_world 2 = Ok "no" /\
  status sample_dir sample_join sample_str sample_args bootstrap_only_world = 0 /\
  commands (emitted (script sample_dir sample_join sample_str sample_args
                       bootstrap_only_world)) =
    bootstrap_commands sample_join (venv_path sample_dir sample_join) "shop".
Proof.
  split; [ intros n command; reflexivity | ].
  do 4 (split; [ reflexivity | ]).
  destruct (declining_start_issues_no_server sample_dir sample_join sample_str)
    as (_ & _ & _ & H).
  destruct (H sample_args bootstrap_only_world "n" "Y" "no")
    as (_ & Hstatus & Hcommands & _).
  - intros n command; reflexivity.
  - reflexivity.
  - reflexivity.
  - left; reflexivity.
  - reflexivity.
  - right; reflexivity.
  - reflexivity.
  - intros [E | E]; discriminate E.
  - split; [ exact Hstatus | exact Hcommands ].
Defined.


(** Ctrl-C while the activate script is running. *)
Lemma interrupt_is_caught_at_top_level_witness :
  existsb interrupted
    (emitted (script sample_dir sample_join sample_str sample_args interrupted_world))
    = true /\
  status sample_dir sample_join sample_str sample_args interrupted_world = 1.
Proof.
  split; [ reflexivity | ].
  destruct (interrupt_is_caught_at_top_level sample_dir sample_join sample_str sample_args
              interrupted_world) as (_ & Hstatus & _).
  - reflexivity.
  - exact Hstatus.
Defined.

(** ** Further properties at work on the sample worlds *)

(** Nobody at the terminal: the start prompt meets end of file. *)
Lemma eof_at_prompt_is_fatal_witness :
  In (Asked start_prompt (Fault (Err "EOF when reading a line")))
     (emitted (script sample_dir sample_join sample_str sample_args unattended_world)) /\
  status sample_dir sample_join sample_str sample_args unattended_world = 1.
Proof.
  assert (HIn : In (Asked start_prompt (Fault (Err "EOF when reading a line")))
                   (emitted (script sample_dir sample_join sample_str sample_args
                               unattended_world))).
  { do 18 right. left. reflexivity. }
  split; [ exact HIn | ].
  destruct (eof_at_prompt_is_fatal sample_dir sample_join sample_str sample_args
              unattended_world start_prompt "EOF when reading a line" HIn)
    as (_ & Hstatus & _).
  exact Hstatus.
Defined.

(** Enter at the reinstall prompt, then "n" at the start prompt. *)
Lemma reinstall_run_command_order_witness :
  path_exists enter_world (venv_path sample_dir sample_join) = true /\
  stdin enter_world 0 = Ok "" /\
  exists tail,
    In tail (launch_choices sample_dir sample_join sample_args) /\
    commands (emitted (script sample_dir sample_join sample_str sample_args enter_world)) =
      fresh_sequence sample_dir sample_join sample_args ++ tail.
Proof.
  do 2 (split; [ reflexivity | ]).
  apply (reinstall_run_command_order sample_dir sample_join sample_str sample_args
           enter_world "").
  - reflexivity.
  - reflexivity.
  - intros [H | H]; discriminate H.
  - reflexivity.
Defined.

(** "n", then "Y", then "no": the bootstrap alone. *)
Lemma skip_run_command_order_witness :
  path_exists bootstrap_only_world (venv_path sample_dir sample_join) = true /\
  stdin bootstrap_only_world 0 = Ok "n" /\
  stdin bootstrap_only_world 1 = Ok "Y" /\
  status sample_dir sample_join sample_str sample_args bootstrap_only_world = 0 /\
  res (script sample_dir sample_join sample_str sample_args bootstrap_only_world) =
    Raise (SystemExit 0).
Proof.
  do 3 (split; [ reflexivity | ]).
  split; [ reflexivity | ].
  destruct (skip_run_command_order sample_dir sample_join sample_str sample_args
              bootstrap_only_world "n" "Y") as (_ & _ & H).
  - reflexivity.
  - reflexivity.
  - left; reflexivity.
  - reflexivity.
  - right; reflexivity.
  - destruct (H eq_refl) as (Hres & _). exact Hres.
Defined.

(** The activate script is not found: the run stops after two commands. *)
Lemma provisioning_failure_stops_run_witness :
  path_exists no_activate_world (venv_path sample_dir sample_join) = false /\
  (1 < 3)%nat /\
  shell no_activate_world 1
    (nth 1 (provision_commands sample_dir sample_join sample_args) "") = Exited 127 /\
  127 <> 0 /\
  commands (emitted (script sample_dir sample_join sample_str sample_args
                       no_activate_world)) =
    firstn 2 (provision_commands sample_dir sample_join sample_args).
Proof.
  split; [ reflexivity | split; [ lia | split; [ reflexivity | split; [ lia | ] ] ] ].
  apply (provisioning_failure_stops_run sample_dir sample_join sample_str sample_args
           no_activate_world 1%nat 127).
  - reflexivity.
  - lia.
  - intros j Hj. destruct j; [ reflexivity | lia ].
  - reflexivity.
  - lia.
Defined.

(** A complete run from a fresh state shows its first prompt after the six
    setup commands. *)
Lemma fresh_run_prompts_witness :
  path_exists fresh_world (venv_path sample_dir sample_join) = false /\
  prompts (emitted (script sample_dir sample_join sample_str sample_args fresh_world))
    <> [] /\
  firstn 6 (commands (emitted (script sample_dir sample_join sample_str sample_args
                                 fresh_world))) =
    fresh_sequence sample_dir sample_join sample_args.
Proof.
  assert (Hshown : prompts (emitted (script sample_dir sample_join sample_str sample_args
                                       fresh_world)) <> [])
    by (vm_compute; discriminate).
  split; [ reflexivity | split; [ exact Hshown | ] ].
  destruct (fresh_run_prompts sample_dir sample_join sample_str sample_args fresh_world
              eq_refl) as (_ & H).
  exact (H Hshown).
Defined.

(** The lookup with the network up. *)
Lemma get_local_ip_success_witness :
  (forall op, In op discovery_ops -> sock fresh_world op = None) /\
  res (get_local_ip sample_str fresh_world start) = Ret (Some "192.168.1.20") /\
  sock_ops (emitted (get_local_ip sample_str fresh_world start)) = discovery_ops.
Proof.
  assert (Hup : forall op, In op discovery_ops -> sock fresh_world op = None)
    by (intros op _; reflexivity).
  split; [ exact Hup | ].
  rewrite (get_local_ip_success sample_str fresh_world start Hup).
  split; reflexivity.
Defined.

(** The server exposed with the network up: the address is announced. *)
Lemma empty_address_counts_as_unknown_witness :
  let venv := venv_path sample_dir sample_join in
  let o := start_django_server sample_join sample_str venv "shop" exposed_world
             {| asked := 0; ran := 6 |} in
  stdin exposed_world 0 = Ok "y" /\
  stdin exposed_world 1 = Ok "Y" /\
  (forall op, In op discovery_ops -> sock exposed_world op = None) /\
  nth_error (firstn 10 (emitted o)) 9 = Some (Printed (access_line "192.168.1.20")).
Proof.
  intros venv o.
  assert (Hup : forall op, In op discovery_ops -> sock exposed_world op = None)
    by (intros op _; reflexivity).
  do 2 (split; [ reflexivity | ]). split; [ exact Hup | ].
  subst o.
  rewrite (empty_address_counts_as_unknown sample_join sample_str venv "shop" exposed_world
             {| asked := 0; ran := 6 |} "y" "Y"
             eq_refl (or_introl eq_refl) eq_refl (or_intror eq_refl) Hup).
  reflexivity.
Defined.

(** The exposed server while the network is down: sockets were used, and
    both prompts had been answered yes. *)
Lemma socket_only_after_consent_witness :
  sock_ops (emitted (script sample_dir sample_join sample_str sample_args offline_world))
    <> [] /\
  exists a b,
    In (Asked start_prompt (Ok a))
       (emitted (script sample_dir sample_join sample_str sample_args offline_world)) /\
    In (Asked expose_prompt (Ok b))
       (emitted (script sample_dir sample_join sample_str sample_args offline_world)) /\
    (a = "y" \/ a = "Y") /\
    (b = "y" \/ b = "Y").
Proof.
  assert (Hused : sock_ops (emitted (script sample_dir sample_join sample_str sample_args
                                       offline_world)) <> [])
    by (vm_compute; discriminate).
  split; [ exact Hused | ].
  exact (socket_only_after_consent sample_dir sample_join sample_str sample_args
           offline_world Hused).
Defined.
